(** * random-quiz: session-bound random quiz, selection and scoring

    A shallow embedding of [random_quiz_app_20260129_022950.py]: the
    question bank loaded at start-up, the three Flask views ([home],
    [submit], [start_over]) as functions on an explicit session, and the
    quiz branch of the page template as a function to a document tree.

    Conventions.
    - The Flask [session] (a dict in which the program only ever touches
      the keys qids and started_at) is a record of two optional fields;
      [key in session] is [is_Some], [session.pop(key, None)] sets [None].
    - A raised Python exception is the [Raise] case of [result]; a view
      that raises answers [InternalError] and leaves the session as it was
      when the exception left the view.
    - [df.sample] and [datetime.utcnow] read the outside world; the draws of
      the generator and the clock reading are explicit arguments. *)

From stdpp Require Import base list sorting strings pretty.

Local Open Scope string_scope.
Local Open Scope list_scope.
Local Open Scope nat_scope.

(** ** Python values, exceptions *)

(** A cell of the spreadsheet as pandas hands it over: text, a whole
    number, or NaN for an empty cell. *)
Inductive cell : Type :=
  | CStr (s : string)
  | CInt (z : Z)
  | CNaN.

#[global] Instance cell_eq_dec : EqDecision cell.
Proof. solve_decision. Defined.

(** [str(x)] *)
Definition py_str (x : cell) : string :=
  match x with
  | CStr s => s
  | CInt z => pretty z
  | CNaN => "nan"
  end.

(** Truth value of [x] in an [if]: empty text and zero are false, NaN is a
    non-zero float and so true. *)
Definition py_truthy (x : cell) : bool :=
  match x with
  | CStr s => negb (bool_decide (s = EmptyString))
  | CInt z => negb (bool_decide (z = 0%Z))
  | CNaN => true
  end.

(** [your == correct] where [your] is what [request.form.get] returned: a
    [str] or [None]. Only text equals text; [None], a number and NaN equal
    no string. *)
Definition py_eq (your : option string) (correct : cell) : bool :=
  match your, correct with
  | Some s, CStr c => bool_decide (s = c)
  | _, _ => false
  end.

Inductive exception : Type :=
  | RuntimeError_missing_columns (missing : list string)
  | ValueError_larger_sample_than_population
  | ValueError_not_in_list (x : string).

Inductive result (A : Type) : Type :=
  | Ok (a : A)
  | Raise (e : exception).
Arguments Ok {A} a.
Arguments Raise {A} e.

#[global] Instance result_ret : MRet result := λ A a, Ok a.
#[global] Instance result_bind : MBind result := λ A B f m,
  match m with
  | Ok a => f a
  | Raise e => Raise e
  end.

(** ** The question bank *)

(** One record of the bank after start-up validation: the seven required
    columns, and whatever other columns the sheet has (Category and
    Difficulty among them), in [extra]. *)
Record row : Type := Row {
  QuestionID : string;
  QuestionText : cell;
  OptionA : cell;
  OptionB : cell;
  OptionC : cell;
  OptionD : cell;
  CorrectAnswer : cell;
  extra : list (string * cell)
}.

Abbreviation DataFrame := (list row).

(** What [pd.read_excel] returns: the column names and one association
    list (column name, cell) per line of the sheet. *)
Record Sheet : Type := {
  columns : list string;
  records : list (list (string * cell))
}.

Definition required_cols : list string :=
  ["QuestionID"; "QuestionText"; "OptionA"; "OptionB"; "OptionC"; "OptionD";
   "CorrectAnswer"].

Fixpoint assoc {V} (k : string) (l : list (string * V)) : option V :=
  match l with
  | [] => None
  | (k', v) :: l' => if decide (k = k') then Some v else assoc k l'
  end.

Definition sheet_cell (rec : list (string * cell)) (col : string) : cell :=
  default CNaN (assoc col rec).

(** The ids of the bank are strings here. A line of the sheet whose
    QuestionID cell is empty is outside what this conversion describes:
    what [astype(str)] makes of it depends on the pandas at hand (the text
    nan, or a missing value that stays missing), so a property that rests
    on the ids assumes [ids_filled] below. *)
Definition row_of_record (rec : list (string * cell)) : row :=
  {| QuestionID := py_str (sheet_cell rec "QuestionID");   (* astype(str) *)
     QuestionText := sheet_cell rec "QuestionText";
     OptionA := sheet_cell rec "OptionA";
     OptionB := sheet_cell rec "OptionB";
     OptionC := sheet_cell rec "OptionC";
     OptionD := sheet_cell rec "OptionD";
     CorrectAnswer := sheet_cell rec "CorrectAnswer";
     extra := filter (λ kv, kv.1 ∉ required_cols) rec |}.

(** Lines 16 to 23: load once, check the required columns, turn the ids
    into strings. Nothing else is checked here. *)
Definition startup (sheet : Sheet) : result DataFrame :=
  let missing := filter (λ c, c ∉ columns sheet) required_cols in
  if decide (missing = []) then Ok (row_of_record <$> records sheet)
  else Raise (RuntimeError_missing_columns missing).

(** The dict of one record, [to_dict(orient=records)], read with
    [q.get(key)]. *)
Definition record_get (q : row) (key : string) : option cell :=
  if decide (key = "QuestionID") then Some (CStr (QuestionID q))
  else if decide (key = "QuestionText") then Some (QuestionText q)
  else if decide (key = "OptionA") then Some (OptionA q)
  else if decide (key = "OptionB") then Some (OptionB q)
  else if decide (key = "OptionC") then Some (OptionC q)
  else if decide (key = "OptionD") then Some (OptionD q)
  else if decide (key = "CorrectAnswer") then Some (CorrectAnswer q)
  else assoc key (extra q).

(** ** Random selection *)

(** [k] picks without replacement from [pool]: each pick takes the element
    at position (next draw modulo what is left) and removes it. [draws] is
    the sequence of raw values of the random generator. *)
Fixpoint choice {A} (draws : nat → nat) (k : nat) (pool : list A) : list A :=
  match k with
  | 0 => []
  | S k' =>
      let j := draws 0 mod length pool in
      match pool !! j with
      | Some x => x :: choice (λ i, draws (S i)) k' (delete j pool)
      | None => []
      end
  end.

(** [df.sample(n, replace=False)]: more rows asked than there are is a
    ValueError, otherwise [n] rows, none taken twice. pandas shuffles the
    row positions and keeps the first [n]; [choice] reaches the same
    arrangements ([choice_complete] below). *)
Definition df_sample (df : DataFrame) (n : nat) (draws : nat → nat)
  : result DataFrame :=
  if decide (n ≤ length df) then Ok (choice draws n df)
  else Raise ValueError_larger_sample_than_population.

(** ** Lookup of the selected questions *)

(** [qids.index(x)] *)
Fixpoint list_index (qids : list string) (x : string) : result nat :=
  match qids with
  | [] => Raise (ValueError_not_in_list x)
  | y :: rest =>
      if decide (y = x) then Ok 0
      else i ← list_index rest x; Ok (S i)
  end.

(** [subset[QuestionID].apply(lambda x: qids.index(x))], kept beside each
    record as its __order column. *)
Fixpoint apply_order (qids : list string) (subset : DataFrame)
  : result (list (row * nat)) :=
  match subset with
  | [] => Ok []
  | r :: rest =>
      i ← list_index qids (QuestionID r);
      tl ← apply_order qids rest;
      Ok ((r, i) :: tl)
  end.

Definition order_le (a b : row * nat) : Prop := a.2 ≤ b.2.

(** [drop(columns=[name])] on one record, for a column that is not one of
    the seven required ones. *)
Definition drop_column (name : string) (r : row) : row :=
  {| QuestionID := QuestionID r; QuestionText := QuestionText r;
     OptionA := OptionA r; OptionB := OptionB r;
     OptionC := OptionC r; OptionD := OptionD r;
     CorrectAnswer := CorrectAnswer r;
     extra := filter (λ kv, kv.1 ≠ name) (extra r) |}.

#[global] Instance order_le_dec a b : Decision (order_le a b).
Proof. unfold order_le. apply _. Defined.

(** [sort_values(__order)]. pandas sorts with an unstable routine by
    default and this one is stable; they can differ only on equal keys,
    which takes two rows of the bank with one id ([sort_values_unique]
    below). *)
Definition sort_values (subset : list (row * nat)) : list (row * nat) :=
  merge_sort order_le subset.

(** ** Session, request, response *)

Record session : Type := Session {
  qids : option (list string);
  started_at : option string
}.

(** No key set: what a new visitor has, and what both pops leave. *)
Definition cleared : session := {| qids := None; started_at := None |}.

(** [request.form]: the submitted fields in order; [form.get(key)] is the
    first value sent under [key], or [None]. *)
Abbreviation form := (list (string * string)).

(** A reading of [datetime.utcnow()], in the two renderings the views
    use: [isoformat()] and [isoformat(timespec=seconds)]. *)
Record datetime : Type := {
  isoformat : string;
  isoformat_seconds : string
}.

Record review_item : Type := ReviewItem {
  review_QuestionID : string;
  review_QuestionText : cell;
  YourAnswer : option string;
  review_CorrectAnswer : cell
}.

(** What a view returns: the context it hands to [render_template_string]
    (quiz or result mode), a redirect to an endpoint, or the failure page
    of an uncaught exception. *)
Inductive response : Type :=
  | render_quiz (questions : DataFrame) (n : nat)
  | render_result (score n : nat) (review : list review_item)
      (submitted_at : string)
  | redirect (endpoint : string)
  | InternalError (e : exception).

(** One turn of the loop of [submit]. *)
Definition score_step (f : form) (acc : nat * list review_item) (q : row)
  : nat * list review_item :=
  let '(score, review) := acc in
  let qid := QuestionID q in
  let your := assoc qid f in
  let correct := CorrectAnswer q in
  let score := if py_eq your correct then score + 1 else score in
  (score,
   review ++ [ {| review_QuestionID := qid;
                  review_QuestionText := QuestionText q;
                  YourAnswer := your;
                  review_CorrectAnswer := correct |} ]).

Definition score_loop (f : form) (questions : DataFrame)
  : nat * list review_item :=
  fold_left (score_step f) questions (0, []).

Section Globals.
(** The module's globals: the bank and the quiz size. *)
Variable df : DataFrame.
Variable QUESTIONS_PER_QUIZ : nat.

Definition _pick_question_ids (draws : nat → nat) : result (list string) :=
  sample ← df_sample df QUESTIONS_PER_QUIZ draws;
  Ok (QuestionID <$> (sample : DataFrame)).

Definition _get_questions_by_ids (qids : list string) : result DataFrame :=
  let subset := filter (λ r, QuestionID r ∈ qids) df in
  ordered ← apply_order qids subset;
  let subset := sort_values ordered in
  Ok (drop_column "__order" <$> (fst <$> (subset : list (row * nat)))).

Definition home (s : session) (draws : nat → nat) (now : datetime)
  : session * response :=
  let entered :=
    match qids s with
    | Some ids => Ok (s, ids)
    | None =>
        picked ← _pick_question_ids draws;
        Ok ({| qids := Some picked; started_at := Some (isoformat now) |},
            (picked : list string))
    end in
  match entered with
  | Raise e => (s, InternalError e)
  | Ok (s', ids) =>
      match _get_questions_by_ids ids with
      | Raise e => (s', InternalError e)
      | Ok questions => (s', render_quiz questions (length questions))
      end
  end.

Definition submit (s : session) (f : form) (now : datetime)
  : session * response :=
  match qids s with
  | None => (s, redirect "home")
  | Some ids =>
      match _get_questions_by_ids ids with
      | Raise e => (s, InternalError e)
      | Ok questions =>
          let '(score, review) := score_loop f questions in
          let submitted_at := isoformat_seconds now +:+ "Z" in
          (cleared, render_result score (length review) review submitted_at)
      end
  end.

Definition start_over (s : session) : session * response :=
  (cleared, redirect "home").
End Globals.

(** The value the source gives the quiz size. *)
Definition QUESTIONS_PER_QUIZ : nat := 20.

(** The three routes, each request with what it reads from outside. *)
Inductive request : Type :=
  | GET_home (draws : nat → nat) (now : datetime)
  | POST_submit (f : form) (now : datetime)
  | GET_start_over.

Definition handle (df : DataFrame) (n : nat) (s : session) (req : request)
  : session * response :=
  match req with
  | GET_home draws now => home df n s draws now
  | POST_submit f now => submit df s f now
  | GET_start_over => start_over s
  end.

(** A visitor's requests in turn, the session cookie carried from one to
    the next. *)
Fixpoint run (df : DataFrame) (n : nat) (s : session) (reqs : list request)
  : session * list response :=
  match reqs with
  | [] => (s, [])
  | req :: rest =>
      let '(s', resp) := handle df n s req in
      let '(s'', resps) := run df n s' rest in
      (s'', resp :: resps)
  end.

(** ** The quiz branch of the page template *)

#[local] Unset Elimination Schemes.
Inductive html : Type :=
  | Text (s : string)
  | Elem (tag : string) (attrs : list (string * string)) (children : list html).
#[local] Set Elimination Schemes.

(** An expression between double braces: [str] of the value, nothing for
    an undefined one. *)
Definition jinja_out (v : option cell) : string :=
  match v with
  | Some c => py_str c
  | None => EmptyString
  end.

Definition jinja_if (v : option cell) : bool :=
  match v with
  | Some c => py_truthy c
  | None => false
  end.

Definition PAGE_meta (q : row) : list html :=
  let category := record_get q "Category" in
  let difficulty := record_get q "Difficulty" in
  if jinja_if category || jinja_if difficulty then
    [ Elem "div" [("class", "meta")]
        ((if jinja_if category
          then [Text ("Category: " +:+ jinja_out category)] else [])
         ++
         (if jinja_if difficulty
          then (if jinja_if category then [Text " | "] else [])
               ++ [Text ("Difficulty: " +:+ jinja_out difficulty)]
          else [])) ]
  else [].

Definition PAGE_option (q : row) (opt : string) : html :=
  Elem "label" [("style", "display:block; margin: 6px 0;")]
    [ Elem "input"
        [("type", "radio");
         ("name", jinja_out (record_get q "QuestionID"));
         ("value", opt);
         ("required", EmptyString)] [];
      Elem "span" []
        [ Elem "b" [] [Text (opt +:+ ".")];
          Text (" " +:+ jinja_out (record_get q ("Option" +:+ opt))) ] ].

Definition PAGE_question (index0 : nat) (q : row) : html :=
  Elem "div" [("class", "q")]
    ([ Elem "div" []
         [ Elem "b" []
             [Text (pretty (S index0) +:+ ". "
                    +:+ jinja_out (record_get q "QuestionText"))] ] ]
     ++ PAGE_meta q
     ++ [ Elem "div" [("style", "margin-top:8px")]
            (PAGE_option q <$> ["A"; "B"; "C"; "D"]) ]).

(** The form rendered when mode is quiz. *)
Definition PAGE_quiz (questions : DataFrame) : html :=
  Elem "form" [("method", "post"); ("action", "/submit")]
    (imap PAGE_question questions
     ++ [ Elem "button" [("class", "btn btn-primary"); ("type", "submit")]
            [Text "Submit"] ]).

(** ** Vocabulary of the statements *)

(** The invariants of the data model. All ids of the bank are different. *)
Definition valid_bank (df : DataFrame) : Prop := NoDup (QuestionID <$> df).

(** The stored ids are different and all name a question of the bank. *)
Definition valid_qids (df : DataFrame) (ids : list string) : Prop :=
  NoDup ids ∧ ∀ id, id ∈ ids → id ∈ QuestionID <$> df.

(** Where [x] first stands in [ids] (0 when it does not occur). *)
Fixpoint position (ids : list string) (x : string) : nat :=
  match ids with
  | [] => 0
  | y :: rest => if decide (y = x) then 0 else S (position rest x)
  end.

(** The rows whose id is requested, each with its position in the
    request, sorted on that position. *)
Definition selected_rows (df : DataFrame) (ids : list string) : DataFrame :=
  fst <$> sort_values
    ((λ r, (r, position ids (QuestionID r)))
       <$> filter (λ r, QuestionID r ∈ ids) df).

(** The records [_get_questions_by_ids] returns, without the error
    plumbing: those rows, the helper column dropped. *)
Definition selected (df : DataFrame) (ids : list string) : DataFrame :=
  drop_column "__order" <$> selected_rows df ids.

(** The review item the loop of [submit] appends for [q]. *)
Definition review_of (f : form) (q : row) : review_item :=
  {| review_QuestionID := QuestionID q;
     review_QuestionText := QuestionText q;
     YourAnswer := assoc (QuestionID q) f;
     review_CorrectAnswer := CorrectAnswer q |}.

(** The test of the loop of [submit] succeeds on [q]. *)
Definition answered_right (f : form) (q : row) : Prop :=
  py_eq (assoc (QuestionID q) f) (CorrectAnswer q) = true.

#[local] Instance answered_right_dec f q : Decision (answered_right f q).
Proof. unfold answered_right. apply _. Defined.

(** A session that holds ids holds valid ones. *)
Definition session_ok (df : DataFrame) (s : session) : Prop :=
  ∀ ids, qids s = Some ids → valid_qids df ids.

(** A small bank, a run of the generator and two clock readings to run
    the program on. *)
Definition question (id answer : string) : row :=
  {| QuestionID := id;
     QuestionText := CStr ("Text of " +:+ id);
     OptionA := CStr "first"; OptionB := CStr "second";
     OptionC := CStr "third"; OptionD := CStr "fourth";
     CorrectAnswer := CStr answer;
     extra := [("Category", CStr "General")] |}.

Definition bank5 : DataFrame :=
  [question "Q1" "A"; question "Q2" "B"; question "Q3" "C";
   question "Q4" "D"; question "Q5" "A"].

Definition draws7 (i : nat) : nat := 7 * i + 3.

Definition noon : datetime :=
  {| isoformat := "2026-01-29T12:00:00.250000";
     isoformat_seconds := "2026-01-29T12:00:00" |}.

Definition later : datetime :=
  {| isoformat := "2026-01-29T12:05:00.500000";
     isoformat_seconds := "2026-01-29T12:05:00" |}.

(** The session [home] leaves on a first visit with [bank5], quiz size 3
    and [draws7]. *)
Definition started3 : session :=
  {| qids := Some ["Q4"; "Q3"; "Q5"];
     started_at := Some "2026-01-29T12:00:00.250000" |}.

(** A sheet with every required column and one line only. *)
Definition sheet1 : Sheet :=
  {| columns := required_cols ++ ["Category"];
     records :=
       [ [("QuestionID", CInt 1); ("QuestionText", CStr "Capital of France?");
          ("OptionA", CStr "Paris"); ("OptionB", CStr "Rome");
          ("OptionC", CStr "Oslo"); ("OptionD", CStr "Bern");
          ("CorrectAnswer", CStr "A"); ("Category", CStr "Geography")] ] |}.

Definition bank1 : DataFrame :=
  [ {| QuestionID := "1"; QuestionText := CStr "Capital of France?";
       OptionA := CStr "Paris"; OptionB := CStr "Rome";
       OptionC := CStr "Oslo"; OptionD := CStr "Bern";
       CorrectAnswer := CStr "A";
       extra := [("Category", CStr "Geography")] |} ].

(** [q] with another value in its CorrectAnswer column. *)
Definition with_CorrectAnswer (c : cell) (q : row) : row :=
  {| QuestionID := QuestionID q; QuestionText := QuestionText q;
     OptionA := OptionA q; OptionB := OptionB q;
     OptionC := OptionC q; OptionD := OptionD q;
     CorrectAnswer := c; extra := extra q |}.

(** The answer is the failure page of an uncaught exception. *)
Definition is_InternalError (resp : response) : bool :=
  match resp with
  | InternalError _ => true
  | _ => false
  end.

(** The test of the loop of [submit], read off a review item. *)
Definition item_right (item : review_item) : Prop :=
  py_eq (YourAnswer item) (review_CorrectAnswer item) = true.

#[local] Instance item_right_dec item : Decision (item_right item).
Proof. unfold item_right. apply _. Defined.

(** The fields a browser can post from a document: name and value of each
    input element, in document order. *)
Fixpoint input_fields (h : html) : list (string * string) :=
  match h with
  | Text _ => []
  | Elem tag attrs children =>
      (if decide (tag = "input")
       then [(default EmptyString (assoc "name" attrs),
              default EmptyString (assoc "value" attrs))]
       else [])
      ++ flat_map input_fields children
  end.

(** A sheet without the option and answer columns. *)
Definition sheet_two_columns : Sheet :=
  {| columns := ["QuestionID"; "QuestionText"; "Category"];
     records := [ [("QuestionID", CInt 7); ("QuestionText", CStr "Why?");
                   ("Category", CStr "Misc")] ] |}.

(** A bank whose answer column holds numbers or nothing. *)
Definition bank_numeric : DataFrame :=
  [ with_CorrectAnswer (CInt 1) (question "Q1" "A");
    with_CorrectAnswer CNaN (question "Q2" "B") ].

(** The two keys are set together and cleared together, and the ids are as
    many as the quiz size. *)
Definition keys_together (n : nat) (s : session) : Prop :=
  (qids s = None ∧ started_at s = None)
  ∨ (∃ ids t, s = {| qids := Some ids; started_at := Some t |}
              ∧ length ids = n).

(** No line of the sheet has an empty QuestionID cell. *)
Definition ids_filled (sheet : Sheet) : Prop :=
  Forall (λ rec, sheet_cell rec "QuestionID" ≠ CNaN) (records sheet).

(** No record of the bank has a column named like the helper column of
    [_get_questions_by_ids]. *)
Definition no_order_column (df : DataFrame) : Prop :=
  Forall (λ r, assoc "__order" (extra r) = None) df.

(** The line of a sheet that loads as [question id answer]. *)
Definition sheet_line (id answer : string) : list (string * cell) :=
  [("QuestionID", CStr id); ("QuestionText", CStr ("Text of " +:+ id));
   ("OptionA", CStr "first"); ("OptionB", CStr "second");
   ("OptionC", CStr "third"); ("OptionD", CStr "fourth");
   ("CorrectAnswer", CStr answer); ("Category", CStr "General")].

(** The sheet [bank5] is loaded from. *)
Definition sheet5 : Sheet :=
  {| columns := required_cols ++ ["Category"];
     records := [sheet_line "Q1" "A"; sheet_line "Q2" "B";
                 sheet_line "Q3" "C"; sheet_line "Q4" "D";
                 sheet_line "Q5" "A"] |}.

(** A sheet in which two lines carry the same id, and the bank it loads
    as. *)
Definition sheet_repeated_id : Sheet :=
  {| columns := required_cols ++ ["Category"];
     records := [sheet_line "Q" "A"; sheet_line "Q" "A";
                 sheet_line "P" "B"] |}.

Definition bank_repeated_id : DataFrame :=
  [question "Q" "A"; question "Q" "A"; question "P" "B"].

(** What a result page says: its total and the ids of its review. *)
Definition total_and_review_ids (resp : response) : nat * list string :=
  match resp with
  | render_result _ n review _ => (n, review_QuestionID <$> review)
  | _ => (0, [])
  end.

(** * Properties *)

(** ** Sampling without replacement *)

Section Choice.
Context {A : Type}.
Implicit Types (pool : list A) (draws : nat → nat).

Lemma choice_length draws k pool :
  k ≤ length pool → length (choice draws k pool) = k.
Proof.
  revert draws pool. induction k as [|k IH]; intros draws pool Hk; [done|].
  simpl. destruct (pool !! (draws 0 mod length pool)) as [x|] eqn:Hx.
  - simpl. f_equal. apply IH. rewrite length_delete by eauto. lia.
  - apply lookup_ge_None in Hx.
    assert (draws 0 mod length pool < length pool)
      by (apply Nat.mod_upper_bound; lia).
    lia.
Qed.

Lemma choice_Permutation draws k pool :
  ∃ rest, pool ≡ₚ choice draws k pool ++ rest.
Proof.
  revert draws pool. induction k as [|k IH]; intros draws pool.
  { by exists pool. }
  simpl. destruct (pool !! (draws 0 mod length pool)) as [x|] eqn:Hx.
  - destruct (IH (λ i, draws (S i)) (delete (draws 0 mod length pool) pool))
      as [rest Hrest].
    exists rest. etrans; [apply (delete_Permutation _ _ _ Hx)|].
    simpl. by constructor.
  - by exists pool.
Qed.

Lemma choice_fmap_NoDup {B} (f : A → B) draws k pool :
  NoDup (f <$> pool) → NoDup (f <$> choice draws k pool).
Proof.
  intros Hnd. destruct (choice_Permutation draws k pool) as [rest Hp].
  rewrite Hp, fmap_app in Hnd. by apply NoDup_app in Hnd as [? _].
Qed.

Lemma choice_elem_of draws k pool x : x ∈ choice draws k pool → x ∈ pool.
Proof.
  intros Hx. destruct (choice_Permutation draws k pool) as [rest Hp].
  rewrite Hp. apply elem_of_app. by left.
Qed.

(** The model leaves the generator free: every duplicate-free
    arrangement of elements of the pool is the outcome of some run. *)
Lemma choice_complete pool (target : list A) :
  NoDup target → (∀ x, x ∈ target → x ∈ pool) →
  ∃ draws, choice draws (length target) pool = target.
Proof.
  revert pool. induction target as [|x target IH]; intros pool Hnd Hin.
  { by exists (λ _, 0). }
  apply NoDup_cons in Hnd as [Hx Hnd].
  destruct (proj1 (list_elem_of_lookup pool x)) as [j Hj];
    [apply Hin; by left|].
  destruct (IH (delete j pool) Hnd) as [draws' Hdraws'].
  { intros y Hy. assert (y ∈ pool) as Hyp by (apply Hin; by right).
    rewrite (delete_Permutation _ _ _ Hj) in Hyp.
    apply elem_of_cons in Hyp as [->|Hyp]; done. }
  exists (λ i, match i with 0 => j | S i' => draws' i' end).
  simpl. rewrite Nat.mod_small by (by eapply lookup_lt_Some).
  rewrite Hj. f_equal. exact Hdraws'.
Qed.
End Choice.

Lemma pick_question_ids_Ok df n draws :
  n ≤ length df →
  _pick_question_ids df n draws = Ok (QuestionID <$> choice draws n df).
Proof.
  intros Hn. unfold _pick_question_ids, df_sample.
  by rewrite decide_True.
Qed.

Lemma pick_question_ids_Raise df n draws :
  length df < n →
  _pick_question_ids df n draws = Raise ValueError_larger_sample_than_population.
Proof.
  intros Hn. unfold _pick_question_ids, df_sample.
  rewrite decide_False by lia. done.
Qed.

Lemma pick_question_ids_valid df n draws ids :
  valid_bank df → _pick_question_ids df n draws = Ok ids →
  length ids = n ∧ valid_qids df ids.
Proof.
  intros Hdf. unfold _pick_question_ids, df_sample.
  destruct (decide (n ≤ length df)) as [Hn|]; simpl; [|done].
  intros [= <-]. rewrite length_fmap. split; [by apply choice_length|]. split.
  - by apply choice_fmap_NoDup.
  - intros id (q & -> & Hq)%list_elem_of_fmap.
    apply list_elem_of_fmap. exists q. eauto using choice_elem_of.
Qed.

(** ** Lookup by ids *)

Lemma list_index_elem_of ids x :
  x ∈ ids → list_index ids x = Ok (position ids x).
Proof.
  induction ids as [|y ids IH]; [by intros ?%elem_of_nil|].
  intros Hx. simpl. destruct (decide (y = x)) as [|Hne]; [done|].
  apply elem_of_cons in Hx as [->|Hx]; [done|]. by rewrite IH.
Qed.

Lemma list_index_not_elem_of ids x :
  x ∉ ids → list_index ids x = Raise (ValueError_not_in_list x).
Proof.
  induction ids as [|y ids IH]; [done|].
  intros Hx. apply not_elem_of_cons in Hx as [Hne Hx]. simpl.
  rewrite decide_False by done. by rewrite IH.
Qed.

Lemma position_inj ids x y :
  x ∈ ids → y ∈ ids → position ids x = position ids y → x = y.
Proof.
  induction ids as [|z ids IH]; [by intros ?%elem_of_nil|].
  intros Hx Hy. simpl.
  destruct (decide (z = x)) as [<-|Hzx], (decide (z = y)) as [<-|Hzy];
    try done.
  intros [= Heq]. apply elem_of_cons in Hx as [->|Hx]; [done|].
  apply elem_of_cons in Hy as [->|Hy]; [done|]. by apply IH.
Qed.

Lemma position_fmap_inj ids (M T : list string) :
  (∀ x, x ∈ M → x ∈ ids) → (∀ x, x ∈ T → x ∈ ids) →
  position ids <$> M = position ids <$> T → M = T.
Proof.
  revert T. induction M as [|m M IH]; intros [|t T] HM HT; try done.
  intros [= Hmt Heq]. f_equal.
  - apply (position_inj ids); [apply HM | apply HT | done]; by left.
  - apply IH; [| |done]; intros x Hx; [apply HM | apply HT]; by right.
Qed.

Lemma position_filter_Sorted (P : string → Prop) `{∀ x, Decision (P x)} ids :
  NoDup ids → Sorted le (position ids <$> filter P ids).
Proof.
  induction 1 as [|a ids Ha Hnd IH]; [constructor|].
  assert (position (a :: ids) <$> filter P ids
          = S <$> (position ids <$> filter P ids)) as Hshift.
  { rewrite <- list_fmap_compose. apply Forall_fmap_ext, Forall_forall.
    intros x [_ Hx]%list_elem_of_filter. simpl.
    rewrite decide_False; [done|]. by intros ->. }
  assert (Sorted le (position (a :: ids) <$> filter P ids)) as Htl.
  { rewrite Hshift. eapply Sorted_fmap; [|exact IH]. intros; lia. }
  rewrite filter_cons. destruct (decide (P a)); [|done].
  rewrite fmap_cons. constructor; [done|].
  rewrite Hshift. simpl. rewrite decide_True by done.
  destruct (position ids <$> filter P ids); simpl; constructor; lia.
Qed.

(** Two arrangements of the same ids, both in the order of [ids], are the
    same list. *)
Lemma position_Sorted_unique ids (M T : list string) :
  (∀ x, x ∈ T → x ∈ ids) → M ≡ₚ T →
  Sorted le (position ids <$> M) → Sorted le (position ids <$> T) → M = T.
Proof.
  intros HT Hp HM HsT. apply (position_fmap_inj ids); [|done|].
  - intros x Hx. apply HT. by rewrite <- Hp.
  - apply (Sorted_unique le); [done..|]. by rewrite Hp.
Qed.

#[local] Instance order_le_total : Total order_le.
Proof. intros a b. unfold order_le. lia. Qed.

#[local] Instance order_le_trans : Transitive order_le.
Proof. intros a b c. unfold order_le. lia. Qed.

Lemma NoDup_fmap_elem_inj {A B} (f : A → B) (l : list A) x y :
  NoDup (f <$> l) → x ∈ l → y ∈ l → f x = f y → x = y.
Proof.
  induction l as [|a l IH]; [by intros _ ?%elem_of_nil|].
  rewrite fmap_cons. intros [Ha Hnd]%NoDup_cons Hx Hy Heq.
  apply elem_of_cons in Hx as [->|Hx], Hy as [->|Hy]; try done.
  - destruct Ha. rewrite Heq. by apply list_elem_of_fmap_2.
  - destruct Ha. rewrite <- Heq. by apply list_elem_of_fmap_2.
  - by apply IH.
Qed.

(** Whatever sorting routine [sort_values] runs, with no two equal keys
    there is one sorted arrangement, so the outcome is the one computed
    here. *)
Lemma sort_values_unique (l l' : list (row * nat)) :
  NoDup (snd <$> l) → l' ≡ₚ l → Sorted order_le l' → l' = sort_values l.
Proof.
  intros Hnd Hp Hs. unfold sort_values.
  apply (Sorted_unique_strong order_le);
    [|done|apply (Sorted_merge_sort order_le)|by rewrite merge_sort_Permutation].
  intros x1 x2 Hx1 Hx2 H12 H21. unfold order_le in *.
  rewrite Hp in Hx1. rewrite merge_sort_Permutation in Hx2.
  apply (NoDup_fmap_elem_inj snd l); [done..|lia].
Qed.

Lemma apply_order_Ok ids (subset : DataFrame) :
  Forall (λ r, QuestionID r ∈ ids) subset →
  apply_order ids subset
  = Ok ((λ r, (r, position ids (QuestionID r))) <$> subset).
Proof.
  induction 1 as [|r subset Hr _ IH]; [done|].
  simpl. rewrite (list_index_elem_of _ _ Hr). simpl. by rewrite IH.
Qed.

(** Inside [_get_questions_by_ids], [qids.index] is only asked for ids that
    passed the membership filter, so it finds each of them. *)
Lemma get_questions_by_ids_Ok df ids :
  _get_questions_by_ids df ids = Ok (selected df ids).
Proof.
  unfold _get_questions_by_ids, selected, selected_rows.
  rewrite apply_order_Ok; [done|].
  apply Forall_forall. by intros r [? _]%list_elem_of_filter.
Qed.

Lemma selected_rows_Permutation df ids :
  selected_rows df ids ≡ₚ filter (λ r, QuestionID r ∈ ids) df.
Proof.
  unfold selected_rows, sort_values. rewrite merge_sort_Permutation.
  rewrite <- list_fmap_compose. simpl.
  by rewrite (list_fmap_ext _ id _ (λ _ _ _, eq_refl)), list_fmap_id.
Qed.

Lemma selected_rows_elem_of df ids q :
  q ∈ selected_rows df ids ↔ QuestionID q ∈ ids ∧ q ∈ df.
Proof. by rewrite selected_rows_Permutation, list_elem_of_filter. Qed.

Lemma selected_Permutation df ids :
  selected df ids
  ≡ₚ drop_column "__order" <$> filter (λ r, QuestionID r ∈ ids) df.
Proof. unfold selected. by rewrite selected_rows_Permutation. Qed.

(** Every record returned is a row of the bank with a requested id, less
    the helper column. *)
Lemma selected_elem_of df ids q :
  q ∈ selected df ids
  ↔ ∃ r, q = drop_column "__order" r ∧ QuestionID r ∈ ids ∧ r ∈ df.
Proof.
  unfold selected. rewrite list_elem_of_fmap.
  by setoid_rewrite selected_rows_elem_of.
Qed.

Lemma selected_elem_of_ids df ids q :
  q ∈ selected df ids → QuestionID q ∈ ids.
Proof. by intros (r & -> & Hr & _)%selected_elem_of. Qed.

(** Dropping the helper column changes none of the required fields. *)
Lemma selected_QuestionID df ids :
  QuestionID <$> selected df ids = QuestionID <$> selected_rows df ids.
Proof.
  unfold selected. rewrite <- list_fmap_compose. by apply list_fmap_ext.
Qed.

Lemma selected_length df ids :
  length (selected df ids) = length (selected_rows df ids).
Proof. unfold selected. by rewrite length_fmap. Qed.

Lemma selected_Sorted df ids :
  Sorted le (position ids <$> (QuestionID <$> selected df ids)).
Proof.
  rewrite selected_QuestionID. unfold selected_rows.
  set (tagged := (λ r, (r, position ids (QuestionID r)))
                   <$> filter (λ r, QuestionID r ∈ ids) df).
  assert (Forall (λ p : row * nat, position ids (QuestionID p.1) = p.2)
            (sort_values tagged)) as Htag.
  { unfold sort_values. rewrite merge_sort_Permutation. subst tagged.
    apply Forall_fmap, Forall_forall. by intros. }
  rewrite <- !list_fmap_compose.
  apply Forall_fmap_ext in Htag. simpl in Htag.
  change (Sorted le
    ((λ p : row * nat, position ids (QuestionID p.1)) <$> sort_values tagged)).
  rewrite Htag. eapply Sorted_fmap; [|apply (Sorted_merge_sort order_le)].
  by intros.
Qed.

(** With unique ids in the bank and in the request, the rows come back in
    the order of the request, the ids the bank does not have left out. *)
Lemma selected_ids df ids :
  valid_bank df → NoDup ids →
  QuestionID <$> selected df ids
  = filter (λ id, id ∈ QuestionID <$> df) ids.
Proof.
  intros Hdf Hids.
  apply (position_Sorted_unique ids).
  - by intros x [_ ?]%list_elem_of_filter.
  - rewrite selected_QuestionID. apply NoDup_Permutation.
    + rewrite selected_rows_Permutation.
      eapply sublist_NoDup; [exact Hdf|]. apply fmap_sublist, sublist_filter.
    + by apply NoDup_filter.
    + intros x. rewrite list_elem_of_filter, !list_elem_of_fmap. split.
      * intros (q & -> & Hq). apply selected_rows_elem_of in Hq as [Hq Hin].
        eauto.
      * intros ((q & -> & Hin) & Hx). exists q. split; [done|].
        by apply selected_rows_elem_of.
  - apply selected_Sorted.
  - by apply position_filter_Sorted.
Qed.

Lemma filter_all_elem {A} (P : A → Prop) `{∀ x, Decision (P x)} (l : list A) :
  (∀ x, x ∈ l → P x) → filter P l = l.
Proof.
  induction l as [|a l IH]; [done|]. intros Hall.
  rewrite filter_cons, decide_True by (apply Hall; by left).
  f_equal. apply IH. intros x Hx. apply Hall. by right.
Qed.

Lemma selected_ids_valid df ids :
  valid_bank df → valid_qids df ids → QuestionID <$> selected df ids = ids.
Proof.
  intros Hdf [Hnd Hin]. rewrite selected_ids by done.
  by apply filter_all_elem.
Qed.

(** ** The scoring loop *)

Lemma score_loop_from f questions score review :
  fold_left (score_step f) questions (score, review)
  = (score + length (filter (answered_right f) questions),
     review ++ (review_of f <$> questions)).
Proof.
  revert score review.
  induction questions as [|q questions IH]; intros score review.
  { simpl. by rewrite Nat.add_0_r, app_nil_r. }
  change (fold_left (score_step f) (q :: questions) (score, review))
    with (fold_left (score_step f) questions (score_step f (score, review) q)).
  rewrite filter_cons, fmap_cons.
  destruct (decide (answered_right f q)) as [Hq|Hq]; unfold answered_right in Hq;
    unfold score_step; fold (review_of f q).
  - rewrite Hq, IH, <- app_assoc. simpl. f_equal. lia.
  - apply not_true_is_false in Hq. by rewrite Hq, IH, <- app_assoc.
Qed.

Lemma score_loop_spec f questions :
  score_loop f questions
  = (length (filter (answered_right f) questions), review_of f <$> questions).
Proof. unfold score_loop. by rewrite score_loop_from. Qed.

(** [submit] on a session that holds a quiz (of string ids, as all ids
    are here) scores and clears. *)
Lemma submit_active df s f now ids :
  qids s = Some ids →
  submit df s f now
  = (cleared,
     render_result
       (length (filter (answered_right f) (selected df ids)))
       (length (selected df ids))
       (review_of f <$> selected df ids)
       (isoformat_seconds now +:+ "Z")).
Proof.
  intros Hs. unfold submit.
  rewrite Hs, get_questions_by_ids_Ok, score_loop_spec.
  by rewrite length_fmap.
Qed.

Lemma home_active df n s draws now ids :
  qids s = Some ids →
  home df n s draws now
  = (s, render_quiz (selected df ids) (length (selected df ids))).
Proof.
  intros Hs. unfold home. by rewrite Hs, get_questions_by_ids_Ok.
Qed.

Lemma home_absent df n s draws now :
  qids s = None →
  home df n s draws now
  = match _pick_question_ids df n draws with
    | Ok picked =>
        ({| qids := Some picked; started_at := Some (isoformat now) |},
         render_quiz (selected df picked) (length (selected df picked)))
    | Raise e => (s, InternalError e)
    end.
Proof.
  intros Hs. unfold home. rewrite Hs.
  destruct (_pick_question_ids df n draws) as [picked|e]; simpl; [|done].
  by rewrite get_questions_by_ids_Ok.
Qed.

Lemma score_loop_agree f1 f2 (questions : DataFrame) :
  (∀ q, q ∈ questions → assoc (QuestionID q) f1 = assoc (QuestionID q) f2) →
  score_loop f1 questions = score_loop f2 questions.
Proof.
  rewrite !score_loop_spec.
  induction questions as [|q questions IH]; [done|]. intros Hagree.
  assert (assoc (QuestionID q) f1 = assoc (QuestionID q) f2) as Hq
    by (apply Hagree; by left).
  assert (∀ q', q' ∈ questions
            → assoc (QuestionID q') f1 = assoc (QuestionID q') f2) as Hrest
    by (intros q' Hq'; apply Hagree; by right).
  specialize (IH Hrest). injection IH as Hscore Hreview.
  assert (review_of f1 q = review_of f2 q) as Hitem
    by (unfold review_of; by rewrite Hq).
  assert (answered_right f1 q ↔ answered_right f2 q) as Hright
    by (unfold answered_right; by rewrite Hq).
  rewrite !filter_cons, !fmap_cons, Hitem, Hreview.
  destruct (decide (answered_right f1 q)), (decide (answered_right f2 q));
    simpl; rewrite ?Hscore; tauto.
Qed.

(** ** The stored ids of every session the program builds are valid *)

Lemma handle_session_ok df n s req :
  valid_bank df → session_ok df s → session_ok df (handle df n s req).1.
Proof.
  intros Hdf Hs. destruct req as [draws now|f now|]; simpl.
  - destruct (qids s) as [ids|] eqn:Hq.
    + by rewrite (home_active _ _ _ _ _ ids).
    + rewrite home_absent by done.
      destruct (_pick_question_ids df n draws) as [picked|e] eqn:Hp; [|done].
      intros ids [= <-]. by apply (pick_question_ids_valid df n draws).
  - destruct (qids s) as [ids|] eqn:Hq.
    + rewrite (submit_active _ _ _ _ ids) by done. by intros ids' [=].
    + unfold submit. by rewrite Hq.
  - by intros ids [=].
Qed.

Lemma run_session_ok df n reqs s :
  valid_bank df → session_ok df s → session_ok df (run df n s reqs).1.
Proof.
  intros Hdf. revert s. induction reqs as [|req reqs IH]; intros s Hs; [done|].
  simpl. pose proof (handle_session_ok df n s req Hdf Hs) as Hnext.
  destruct (handle df n s req) as [s' resp]. specialize (IH s' Hnext).
  by destruct (run df n s' reqs).
Qed.

Lemma run_from_cleared_session_ok df n reqs :
  valid_bank df → session_ok df (run df n cleared reqs).1.
Proof. intros Hdf. apply run_session_ok; [done|]. by intros ids [=]. Qed.

(** ** The program on a small bank *)

Example home_first_visit :
  home bank5 3 cleared draws7 noon
  = (started3, render_quiz (selected bank5 ["Q4"; "Q3"; "Q5"]) 3).
Proof. vm_compute. reflexivity. Qed.

Example bank5_valid : valid_bank bank5.
Proof. compute_done. Qed.

(** ** Claims *)

(** All answers right gives score equal to total, whatever the bank and the
    stored ids. *)
Lemma submit_all_right_score_is_n df s f now ids :
  qids s = Some ids →
  (∀ q, q ∈ df → QuestionID q ∈ ids →
        py_eq (assoc (QuestionID q) f) (CorrectAnswer q) = true) →
  ∃ n review submitted_at,
    submit df s f now = (cleared, render_result n n review submitted_at).
Proof.
  intros Hs Hright. rewrite (submit_active _ _ _ _ ids) by done.
  eexists _, _, _. rewrite filter_all_elem; [done|].
  intros q (r & -> & Hq & Hin)%selected_elem_of. by apply (Hright r).
Qed.

(** C1, as the code has it. For a bank with unique ids and an Active
    session whose stored ids are distinct and all present in the bank, a
    submission whose label for each selected question equals that
    question's CorrectAnswer is scored [length ids] out of [length ids]:
    score equals total, and total is the number of selected ids. *)
Theorem submit_all_right_scores_total df s f now ids :
  valid_bank df →
  qids s = Some ids →
  valid_qids df ids →
  (∀ q, q ∈ df → QuestionID q ∈ ids →
        py_eq (assoc (QuestionID q) f) (CorrectAnswer q) = true) →
  ∃ review submitted_at,
    submit df s f now
    = (cleared, render_result (length ids) (length ids) review submitted_at).
Proof.
  intros Hdf Hs Hids Hright. rewrite (submit_active _ _ _ _ ids) by done.
  assert (length (selected df ids) = length ids) as Hlen
    by (by rewrite <- (selected_ids_valid df ids Hdf Hids) at 2;
        rewrite length_fmap).
  eexists _, _. rewrite filter_all_elem; [by rewrite Hlen|].
  intros q (r & -> & Hq & Hin)%selected_elem_of. by apply (Hright r).
Qed.

Lemma submit_all_right_scores_total_witness :
  ∃ review submitted_at,
    submit bank5 started3 [("Q3", "C"); ("Q4", "D"); ("Q5", "A"); ("x", "y")]
      later
    = (cleared, render_result 3 3 review submitted_at).
Proof.
  apply (submit_all_right_scores_total bank5 started3 _ later
           ["Q4"; "Q3"; "Q5"]).
  - compute_done.
  - reflexivity.
  - split.
    + compute_done.
    + refine (proj1 (Forall_forall _ _) _). compute_done.
  - refine (proj1 (Forall_forall _ _) _). compute_done.
Defined.

(** C1 fails for every bank: the total is the number of rows looked up,
    not of ids stored. A sheet with the id Q on two lines passes start-up;
    a first visit with quiz size 2 stores the ids Q and P; every label
    submitted equals the correct answer of every row; the result is 3 out
    of 3 for 2 stored ids. And over [bank5], stored ids that name Q1 twice
    give 1 out of 1 for 2 stored ids. *)
Lemma submit_total_counts_rows_not_stored_ids :
  startup sheet_repeated_id = Ok bank_repeated_id
  ∧ (home bank_repeated_id 2 cleared (λ i, i) noon).1
    = {| qids := Some ["Q"; "P"];
         started_at := Some "2026-01-29T12:00:00.250000" |}
  ∧ Forall (λ q, py_eq (assoc (QuestionID q) [("Q", "A"); ("P", "B")])
                   (CorrectAnswer q) = true) bank_repeated_id
  ∧ (∃ review,
       submit bank_repeated_id
         {| qids := Some ["Q"; "P"];
            started_at := Some "2026-01-29T12:00:00.250000" |}
         [("Q", "A"); ("P", "B")] later
       = (cleared, render_result 3 3 review "2026-01-29T12:05:00Z"))
  ∧ length ["Q"; "P"] = 2
  ∧ (∃ review,
       submit bank5 {| qids := Some ["Q1"; "Q1"]; started_at := None |}
         [("Q1", "A")] later
       = (cleared, render_result 1 1 review "2026-01-29T12:05:00Z")).
Proof.
  split; [vm_compute; reflexivity|]. split; [vm_compute; reflexivity|].
  split; [compute_done|]. split; [eexists; vm_compute; reflexivity|].
  split; [reflexivity|]. eexists. vm_compute. reflexivity.
Qed.

(** C2. For a bank with unique ids and a count no larger than the bank,
    [_pick_question_ids] returns, for every run of the random generator,
    exactly [count] ids, pairwise distinct, each the id of a question of
    the bank. *)
Theorem pick_question_ids_count_distinct_present df count draws :
  valid_bank df →
  count ≤ length df →
  ∃ ids, _pick_question_ids df count draws = Ok ids
         ∧ length ids = count
         ∧ NoDup ids
         ∧ ∀ id, id ∈ ids → id ∈ QuestionID <$> df.
Proof.
  intros Hdf Hcount. eexists. split; [by apply pick_question_ids_Ok|].
  destruct (pick_question_ids_valid df count draws _ Hdf
              (pick_question_ids_Ok df count draws Hcount)) as (? & ? & ?).
  done.
Qed.

Lemma pick_question_ids_count_distinct_present_witness :
  ∃ ids, _pick_question_ids bank5 3 draws7 = Ok ids
         ∧ length ids = 3
         ∧ NoDup ids
         ∧ ∀ id, id ∈ ids → id ∈ QuestionID <$> bank5.
Proof.
  apply (pick_question_ids_count_distinct_present bank5 3 draws7).
  - compute_done.
  - vm_compute. lia.
Defined.

(** C3, as the code has it. When the quiz size exceeds the bank,
    [_pick_question_ids] fails for every run of the generator with the
    error of [df.sample], and returns no id list at all; the failure is
    raised when [home] serves a visitor without a quiz, who stays without
    one. Start-up does not look at the size of the bank. *)
Theorem pick_question_ids_fails_on_small_bank df n draws s now :
  length df < n →
  qids s = None →
  _pick_question_ids df n draws = Raise ValueError_larger_sample_than_population
  ∧ home df n s draws now
    = (s, InternalError ValueError_larger_sample_than_population).
Proof.
  intros Hn Hs. rewrite home_absent by done.
  by rewrite pick_question_ids_Raise.
Qed.

Lemma pick_question_ids_fails_on_small_bank_witness :
  _pick_question_ids bank5 QUESTIONS_PER_QUIZ draws7
  = Raise ValueError_larger_sample_than_population
  ∧ home bank5 QUESTIONS_PER_QUIZ cleared draws7 noon
    = (cleared, InternalError ValueError_larger_sample_than_population).
Proof.
  apply (pick_question_ids_fails_on_small_bank bank5 QUESTIONS_PER_QUIZ
           draws7 cleared noon).
  - vm_compute. lia.
  - reflexivity.
Defined.

(** C3 fails as a start-up error: a sheet with every required column and a
    single line passes start-up although the quiz size is 20; the program
    then answers requests (a submit without a quiz is redirected, a
    start-over too) and only the quiz page fails. *)
Lemma startup_accepts_bank_smaller_than_quiz :
  startup sheet1 = Ok bank1
  ∧ length bank1 < QUESTIONS_PER_QUIZ
  ∧ submit bank1 cleared [] noon = (cleared, redirect "home")
  ∧ start_over cleared = (cleared, redirect "home")
  ∧ home bank1 QUESTIONS_PER_QUIZ cleared draws7 noon
    = (cleared, InternalError ValueError_larger_sample_than_population).
Proof. repeat split; vm_compute; (reflexivity || lia). Qed.

(** C4, as the code has it. With unique ids in the bank and in the
    session, scoring never fails: the review has one item for each stored
    id the bank still has, in the stored order, the total is the number of
    those items, and an id the bank lacks is left out without any error. *)
Theorem submit_leaves_out_missing_ids df s f now ids :
  valid_bank df →
  qids s = Some ids →
  NoDup ids →
  ∃ score review submitted_at,
    submit df s f now
    = (cleared, render_result score (length review) review submitted_at)
    ∧ review_QuestionID <$> review
      = filter (λ id, id ∈ QuestionID <$> df) ids.
Proof.
  intros Hdf Hs Hids. rewrite (submit_active _ _ _ _ ids) by done.
  exists (length (filter (answered_right f) (selected df ids))),
    (review_of f <$> selected df ids), (isoformat_seconds now +:+ "Z").
  split; [by rewrite length_fmap|].
  rewrite <- selected_ids by done.
  rewrite <- (list_fmap_compose (review_of f) review_QuestionID).
  by apply list_fmap_ext.
Qed.

Lemma submit_leaves_out_missing_ids_witness :
  ∃ score review submitted_at,
    submit bank5 {| qids := Some ["Q4"; "Q9"; "Q1"]; started_at := None |}
      [("Q1", "A"); ("Q4", "C")] later
    = (cleared, render_result score (length review) review submitted_at)
    ∧ review_QuestionID <$> review
      = filter (λ id, id ∈ QuestionID <$> bank5) ["Q4"; "Q9"; "Q1"].
Proof.
  apply (submit_leaves_out_missing_ids bank5
           {| qids := Some ["Q4"; "Q9"; "Q1"]; started_at := None |}
           [("Q1", "A"); ("Q4", "C")] later ["Q4"; "Q9"; "Q1"]).
  - compute_done.
  - reflexivity.
  - compute_done.
Defined.

(** C4 fails: the stored id Q9 is not in the bank, and [submit] answers
    with a result page of two items out of two, not with an error. *)
Lemma submit_drops_missing_id_silently :
  bool_decide ("Q9" ∈ QuestionID <$> bank5) = false
  ∧ submit bank5 {| qids := Some ["Q4"; "Q9"; "Q1"]; started_at := None |}
      [("Q1", "A"); ("Q4", "C")] later
    = (cleared,
       render_result 1 2
         [ {| review_QuestionID := "Q4";
              review_QuestionText := CStr "Text of Q4";
              YourAnswer := Some "C";
              review_CorrectAnswer := CStr "D" |};
           {| review_QuestionID := "Q1";
              review_QuestionText := CStr "Text of Q1";
              YourAnswer := Some "A";
              review_CorrectAnswer := CStr "A" |} ]
         "2026-01-29T12:05:00Z").
Proof. split; vm_compute; reflexivity. Qed.

(** C5, as the code has it. Every record [home] hands to the template is
    the whole bank record, its CorrectAnswer column included; what holds no
    correct answer is the page: the quiz branch of the template gives the
    same document whatever the CorrectAnswer column holds. *)
Theorem PAGE_quiz_ignores_CorrectAnswer :
  (∀ q, record_get q "CorrectAnswer" = Some (CorrectAnswer q))
  ∧ ∀ (questions : DataFrame) (c : row → cell),
      PAGE_quiz ((λ q, with_CorrectAnswer (c q) q) <$> questions)
      = PAGE_quiz questions.
Proof.
  split; [done|]. intros questions c. unfold PAGE_quiz. f_equal. f_equal.
  rewrite imap_fmap. apply imap_ext. intros i q _. reflexivity.
Qed.

(** C5 fails: the first question [home] returns for a new visitor carries
    its correct answer under the key CorrectAnswer. *)
Lemma home_view_holds_CorrectAnswer :
  match (home bank5 3 cleared draws7 noon).2 with
  | render_quiz (q :: _) _ =>
      (QuestionID q, record_get q "CorrectAnswer")
  | _ => (EmptyString, None)
  end = ("Q4", Some (CStr "D")).
Proof. vm_compute. reflexivity. Qed.

(** C6. On a session that holds a quiz, any number of consecutive visits of
    the quiz page, whatever the generator and the clock give at each, leave
    the session as it is and all return the same questions in the same
    order: the ones looked up for the stored ids. *)
Theorem home_repeated_same_questions df n s ids
    (visits : list ((nat → nat) * datetime)) :
  qids s = Some ids →
  ∃ questions,
    _get_questions_by_ids df ids = Ok questions
    ∧ run df n s ((λ v, GET_home v.1 v.2) <$> visits)
      = (s, (λ _, render_quiz questions (length questions)) <$> visits).
Proof.
  intros Hs. exists (selected df ids). split; [apply get_questions_by_ids_Ok|].
  induction visits as [|[draws now] visits IH]; [done|].
  rewrite !fmap_cons. simpl. rewrite (home_active _ _ _ _ _ ids) by done.
  by rewrite IH.
Qed.

Lemma home_repeated_same_questions_witness :
  ∃ questions,
    _get_questions_by_ids bank5 ["Q4"; "Q3"; "Q5"] = Ok questions
    ∧ run bank5 3 started3
        ((λ v, GET_home v.1 v.2) <$> [(draws7, noon); (S, later)])
      = (started3,
         (λ _, render_quiz questions (length questions))
           <$> [(draws7, noon); (S, later)]).
Proof.
  apply (home_repeated_same_questions bank5 3 started3 ["Q4"; "Q3"; "Q5"]
           [(draws7, noon); (S, later)]).
  reflexivity.
Defined.

(** C7, as the code has it. For a bank with unique ids and an Active
    session whose stored ids are distinct and all present in the bank, the
    review of every submission has exactly one item per stored id, in the
    stored order. *)
Theorem submit_review_in_stored_order df s f now ids :
  valid_bank df →
  qids s = Some ids →
  valid_qids df ids →
  ∃ score review submitted_at,
    submit df s f now
    = (cleared, render_result score (length ids) review submitted_at)
    ∧ review_QuestionID <$> review = ids.
Proof.
  intros Hdf Hs Hids. rewrite (submit_active _ _ _ _ ids) by done.
  assert (review_QuestionID <$> (review_of f <$> selected df ids) = ids)
    as Hreview.
  { rewrite <- (list_fmap_compose (review_of f) review_QuestionID).
    rewrite <- (selected_ids_valid df ids Hdf Hids) at 2.
    by apply list_fmap_ext. }
  assert (length (selected df ids) = length ids) as Hlen
    by (by rewrite <- (selected_ids_valid df ids Hdf Hids) at 2;
        rewrite length_fmap).
  eexists _, _, _. split; [|exact Hreview]. by rewrite Hlen.
Qed.

(** The conditions hold for every session a visitor can hold over a bank
    with unique ids, whatever requests came before, starting without a
    session. *)
Corollary submit_review_in_stored_order_after_run df n reqs f now ids :
  valid_bank df →
  qids (run df n cleared reqs).1 = Some ids →
  ∃ score review submitted_at,
    submit df (run df n cleared reqs).1 f now
    = (cleared, render_result score (length ids) review submitted_at)
    ∧ review_QuestionID <$> review = ids.
Proof.
  intros Hdf Hs.
  pose proof (run_from_cleared_session_ok df n reqs Hdf ids Hs) as Hids.
  rewrite (submit_active _ _ _ _ ids) by done.
  pose proof (selected_ids_valid df ids Hdf Hids) as Hsel.
  exists (length (filter (answered_right f) (selected df ids))),
    (review_of f <$> selected df ids), (isoformat_seconds now +:+ "Z").
  split.
  - assert (length (selected df ids) = length ids) as ->; [|done].
    by rewrite <- Hsel at 2; rewrite length_fmap.
  - rewrite <- (list_fmap_compose (review_of f) review_QuestionID).
    rewrite <- Hsel at 2. by apply list_fmap_ext.
Qed.

Lemma submit_review_in_stored_order_witness :
  ∃ score review submitted_at,
    submit bank5 started3 [("Q5", "B"); ("Q3", "C")] later
    = (cleared, render_result score 3 review submitted_at)
    ∧ review_QuestionID <$> review = ["Q4"; "Q3"; "Q5"].
Proof.
  apply (submit_review_in_stored_order bank5 started3
           [("Q5", "B"); ("Q3", "C")] later ["Q4"; "Q3"; "Q5"]).
  - compute_done.
  - reflexivity.
  - split.
    + compute_done.
    + refine (proj1 (Forall_forall _ _) _). compute_done.
Defined.

(** C7 fails for every Active session: the review follows the rows looked
    up. A stored id the bank lacks (Q9) has no item; over a bank with the
    id Q on two rows the stored ids Q, P get three items; stored ids that
    name Q1 twice get one. *)
Lemma review_is_not_one_item_per_stored_id :
  total_and_review_ids
    (submit bank5 {| qids := Some ["Q4"; "Q9"; "Q1"]; started_at := None |}
       [("Q4", "D")] later).2
  = (2, ["Q4"; "Q1"])
  ∧ total_and_review_ids
      (submit bank_repeated_id
         {| qids := Some ["Q"; "P"]; started_at := None |} [] later).2
    = (3, ["Q"; "Q"; "P"])
  ∧ total_and_review_ids
      (submit bank5 {| qids := Some ["Q1"; "Q1"]; started_at := None |}
         [] later).2
    = (1, ["Q1"]).
Proof. repeat split; vm_compute; reflexivity. Qed.



(** C9. A submit on a session without stored ids scores nothing and raises
    nothing: it answers with a redirect to the quiz page and returns the
    session exactly as it found it. *)
Theorem submit_without_quiz_redirects df s f now :
  qids s = None →
  submit df s f now = (s, redirect "home").
Proof. intros Hs. unfold submit. by rewrite Hs. Qed.

Lemma submit_without_quiz_redirects_witness :
  submit bank5 cleared [("Q1", "A")] noon = (cleared, redirect "home").
Proof.
  apply (submit_without_quiz_redirects bank5 cleared [("Q1", "A")] noon).
  reflexivity.
Defined.

(** C10. On a session that holds a quiz, two submissions that give the same
    label (or none) for every stored id get the same answer from [submit]:
    same score, same total, same review. Fields under other names change
    nothing. *)
Theorem submit_reads_only_stored_ids df s f1 f2 now ids :
  qids s = Some ids →
  (∀ id, id ∈ ids → assoc id f1 = assoc id f2) →
  submit df s f1 now = submit df s f2 now.
Proof.
  intros Hs Hagree. unfold submit. rewrite Hs, get_questions_by_ids_Ok.
  rewrite (score_loop_agree f1 f2); [done|].
  intros q Hq%selected_elem_of_ids. by apply Hagree.
Qed.

Lemma submit_reads_only_stored_ids_witness :
  submit bank5 started3 [("Q3", "C"); ("Q1", "A"); ("Q3", "D")] later
  = submit bank5 started3 [("junk", "x"); ("Q3", "C"); ("Q2", "B")] later.
Proof.
  apply (submit_reads_only_stored_ids bank5 started3 _ _ later
           ["Q4"; "Q3"; "Q5"]).
  - reflexivity.
  - refine (proj1 (Forall_forall _ _) _). compute_done.
Defined.

(** ** Further properties: start-up *)

Lemma filter_nil_Forall {A} (P : A → Prop) `{∀ x, Decision (P x)} (l : list A) :
  filter P l = [] ↔ ∀ x, x ∈ l → ¬ P x.
Proof.
  split.
  - intros Hnil x Hx HP. by apply (filter_nil_not_elem_of P l x).
  - intros Hall. destruct (filter P l) as [|x k] eqn:Hf; [done|].
    assert (x ∈ filter P l) as [HP Hx]%list_elem_of_filter
      by (rewrite Hf; by left).
    by destruct (Hall x Hx).
Qed.

(** X1. Start-up succeeds exactly when every required column is among the
    columns of the sheet; what the lines of the sheet hold plays no part. *)
Theorem startup_succeeds_iff_required_columns sheet :
  (∃ df, startup sheet = Ok df)
  ↔ ∀ c, c ∈ required_cols → c ∈ columns sheet.
Proof.
  unfold startup.
  destruct (decide (filter (λ c, c ∉ columns sheet) required_cols = []))
    as [Hnil|Hsome].
  - split; [|by eauto]. intros _ c Hc.
    destruct (decide (c ∈ columns sheet)) as [|Hno]; [done|].
    by destruct (proj1 (filter_nil_Forall _ _) Hnil c Hc).
  - split; [by intros [df [=]]|]. intros Hall. destruct Hsome.
    apply filter_nil_Forall. intros c Hc Hno. by apply Hno, Hall.
Qed.

(** X2. When start-up fails, the error is the RuntimeError about missing
    columns, and the columns it names are exactly the required ones the
    sheet lacks; there is at least one. *)
Theorem startup_error_names_missing_columns sheet e :
  startup sheet = Raise e →
  ∃ missing,
    e = RuntimeError_missing_columns missing
    ∧ (∃ c, c ∈ missing)
    ∧ ∀ c, c ∈ missing ↔ c ∈ required_cols ∧ c ∉ columns sheet.
Proof.
  unfold startup.
  destruct (decide (filter (λ c, c ∉ columns sheet) required_cols = []))
    as [Hnil|Hsome]; [done|].
  intros [= <-]. eexists. split; [done|]. split.
  - destruct (filter (λ c, c ∉ columns sheet) required_cols) as [|c k];
      [done|]. exists c. by left.
  - intros c. rewrite list_elem_of_filter. tauto.
Qed.

Lemma startup_error_names_missing_columns_witness :
  ∃ missing,
    RuntimeError_missing_columns
      ["OptionA"; "OptionB"; "OptionC"; "OptionD"; "CorrectAnswer"]
    = RuntimeError_missing_columns missing
    ∧ (∃ c, c ∈ missing)
    ∧ ∀ c, c ∈ missing
           ↔ c ∈ required_cols ∧ c ∉ columns sheet_two_columns.
Proof.
  apply (startup_error_names_missing_columns sheet_two_columns).
  vm_compute. reflexivity.
Defined.

(** ** Further properties: lookup *)

Lemma drop_column_absent name r :
  assoc name (extra r) = None → drop_column name r = r.
Proof.
  destruct r as [? ? ? ? ? ? ? ex]. unfold drop_column. simpl. intros Hnone.
  f_equal. induction ex as [|[k v] ex IH]; [done|].
  simpl in Hnone. destruct (decide (name = k)) as [|Hne]; [done|].
  rewrite filter_cons. simpl. rewrite decide_True by done.
  f_equal. by apply IH.
Qed.

(** X4. For a bank loaded from a sheet with no empty QuestionID cell and
    no column named __order, the lookup of selected questions never raises
    (the position in the request is only asked for ids that passed the
    membership filter), and what it returns is a rearrangement of the bank
    rows whose id is requested: each such row as often as the bank has
    it, no other row. *)
Theorem get_questions_by_ids_returns_requested_rows sheet df ids :
  startup sheet = Ok df →
  ids_filled sheet →
  no_order_column df →
  ∃ questions,
    _get_questions_by_ids df ids = Ok questions
    ∧ questions ≡ₚ filter (λ r, QuestionID r ∈ ids) df.
Proof.
  intros _ _ Hcol. exists (selected df ids).
  split; [apply get_questions_by_ids_Ok|].
  rewrite selected_Permutation.
  rewrite (list_fmap_ext (drop_column "__order") id); [by rewrite list_fmap_id|].
  intros i r Hr. apply drop_column_absent.
  apply list_elem_of_lookup_2, list_elem_of_filter in Hr as [_ Hr].
  by apply (proj1 (Forall_forall _ _) Hcol).
Qed.

Lemma get_questions_by_ids_returns_requested_rows_witness :
  ∃ questions,
    _get_questions_by_ids bank5 ["Q4"; "Q9"; "Q1"] = Ok questions
    ∧ questions ≡ₚ filter (λ r, QuestionID r ∈ ["Q4"; "Q9"; "Q1"]) bank5.
Proof.
  apply (get_questions_by_ids_returns_requested_rows sheet5 bank5).
  - vm_compute. reflexivity.
  - compute_done.
  - compute_done.
Defined.

(** ** Further properties: the quiz page *)

Lemma pick_question_ids_length df n draws ids :
  _pick_question_ids df n draws = Ok ids → length ids = n.
Proof.
  unfold _pick_question_ids, df_sample.
  destruct (decide (n ≤ length df)); simpl; [|done].
  intros [= <-]. rewrite length_fmap. by apply choice_length.
Qed.

(** X5. With unique ids in the bank and a quiz size that fits it, a visitor
    without a quiz gets one: the session then holds the quiz size many
    distinct ids and the clock reading of this visit, and the page shows
    exactly the questions of those ids, in the stored order. *)
Theorem home_starts_quiz_for_new_visitor df n s draws now :
  valid_bank df →
  n ≤ length df →
  qids s = None →
  ∃ picked questions,
    home df n s draws now
    = ({| qids := Some picked; started_at := Some (isoformat now) |},
       render_quiz questions n)
    ∧ length picked = n
    ∧ NoDup picked
    ∧ QuestionID <$> questions = picked.
Proof.
  intros Hdf Hn Hs. rewrite home_absent by done.
  pose proof (pick_question_ids_Ok df n draws Hn) as Hpick. rewrite Hpick.
  destruct (pick_question_ids_valid df n draws _ Hdf Hpick) as [Hlen Hvalid].
  pose proof (selected_ids_valid df _ Hdf Hvalid) as Hsel.
  assert (length (selected df (QuestionID <$> choice draws n df)) = n) as Hn'.
  { rewrite <- (length_fmap QuestionID), Hsel. exact Hlen. }
  eexists _, _. split; [by rewrite Hn'|]. by destruct Hvalid.
Qed.

Lemma home_starts_quiz_for_new_visitor_witness :
  ∃ picked questions,
    home bank5 3 cleared draws7 noon
    = ({| qids := Some picked; started_at := Some (isoformat noon) |},
       render_quiz questions 3)
    ∧ length picked = 3
    ∧ NoDup picked
    ∧ QuestionID <$> questions = picked.
Proof.
  apply (home_starts_quiz_for_new_visitor bank5 3 cleared draws7 noon).
  - compute_done.
  - vm_compute. lia.
  - reflexivity.
Defined.

(** X6. For a bank loaded from a sheet with no empty QuestionID cell, when
    the quiz size fits the bank the quiz page never fails: from any
    session, with string ids or without a quiz, [home] answers with a quiz
    page and leaves a session that holds a quiz. *)
Theorem home_always_serves_when_quiz_fits sheet df n s draws now :
  startup sheet = Ok df →
  ids_filled sheet →
  n ≤ length df →
  ∃ s' ids questions,
    home df n s draws now = (s', render_quiz questions (length questions))
    ∧ qids s' = Some ids.
Proof.
  intros _ _ Hn. destruct (qids s) as [ids|] eqn:Hs.
  - rewrite (home_active _ _ _ _ _ ids) by done. by eexists _, _, _.
  - rewrite home_absent, pick_question_ids_Ok by done. by eexists _, _, _.
Qed.

Lemma home_always_serves_when_quiz_fits_witness :
  ∃ s' ids questions,
    home bank5 5 started3 draws7 later
    = (s', render_quiz questions (length questions))
    ∧ qids s' = Some ids.
Proof.
  apply (home_always_serves_when_quiz_fits sheet5 bank5 5 started3 draws7
           later).
  - vm_compute. reflexivity.
  - compute_done.
  - vm_compute. lia.
Defined.

(** ** Further properties: scoring *)

Lemma filter_item_right_review_of f (questions : DataFrame) :
  length (filter item_right (review_of f <$> questions))
  = length (filter (answered_right f) questions).
Proof.
  induction questions as [|q questions IH]; [done|].
  rewrite fmap_cons, !filter_cons.
  destruct (decide (item_right (review_of f q))) as [Hi|Hi],
    (decide (answered_right f q)) as [Ha|Ha]; simpl; rewrite ?IH; try done.
Qed.

(** X7. For a bank loaded from a sheet with no empty QuestionID cell and a
    session with string ids or none, a submit has two outcomes and no
    other: without stored ids it redirects to the quiz page and leaves the
    session alone; with stored ids it answers with a result page and
    clears the session. No exception leaves it, and the score never
    exceeds the total. *)
Theorem submit_redirects_or_scores sheet df s f now :
  startup sheet = Ok df →
  ids_filled sheet →
  (qids s = None ∧ submit df s f now = (s, redirect "home"))
  ∨ (∃ ids score review submitted_at,
       qids s = Some ids
       ∧ submit df s f now
         = (cleared, render_result score (length review) review submitted_at)
       ∧ score ≤ length review).
Proof.
  intros _ _. destruct (qids s) as [ids|] eqn:Hs.
  - right. rewrite (submit_active _ _ _ _ ids) by done.
    exists ids, (length (filter (answered_right f) (selected df ids))),
      (review_of f <$> selected df ids), (isoformat_seconds now +:+ "Z").
    rewrite length_fmap. split; [done|]. split; [done|]. apply length_filter.
  - left. split; [done|]. unfold submit. by rewrite Hs.
Qed.

Lemma submit_redirects_or_scores_witness :
  (qids started3 = None
   ∧ submit bank5 started3 [("Q3", "C")] later = (started3, redirect "home"))
  ∨ (∃ ids score review submitted_at,
       qids started3 = Some ids
       ∧ submit bank5 started3 [("Q3", "C")] later
         = (cleared, render_result score (length review) review submitted_at)
       ∧ score ≤ length review).
Proof.
  apply (submit_redirects_or_scores sheet5 bank5 started3 [("Q3", "C")]
           later).
  - vm_compute. reflexivity.
  - compute_done.
Defined.

(** X8. On every result page the numbers agree with the review shown next
    to them: the score is the number of review items whose submitted
    answer equals the correct answer, and the total is the number of
    review items. *)
Theorem submit_score_counts_right_review_items
    df s f now s' score n review submitted_at :
  submit df s f now = (s', render_result score n review submitted_at) →
  score = length (filter item_right review) ∧ n = length review.
Proof.
  destruct (qids s) as [ids|] eqn:Hs.
  - rewrite (submit_active _ _ _ _ ids) by done. intros [= _ <- <- <- _].
    by rewrite filter_item_right_review_of, length_fmap.
  - unfold submit. by rewrite Hs.
Qed.

Lemma submit_score_counts_right_review_items_witness :
  1 = length (filter item_right
        [ReviewItem "Q4" (CStr "Text of Q4") (Some "C") (CStr "D");
         ReviewItem "Q3" (CStr "Text of Q3") (Some "C") (CStr "C");
         ReviewItem "Q5" (CStr "Text of Q5") None (CStr "A")])
  ∧ 3 = length
        [ReviewItem "Q4" (CStr "Text of Q4") (Some "C") (CStr "D");
         ReviewItem "Q3" (CStr "Text of Q3") (Some "C") (CStr "C");
         ReviewItem "Q5" (CStr "Text of Q5") None (CStr "A")].
Proof.
  apply (submit_score_counts_right_review_items bank5 started3
           [("Q4", "C"); ("Q3", "C")] later cleared 1 3 _
           "2026-01-29T12:05:00Z").
  vm_compute. reflexivity.
Defined.

(** X9. A submission that answers none of the stored ids (an empty form
    among them) is scored zero, and every review item shows no answer. *)
Theorem submit_unanswered_scores_zero df s f now ids :
  qids s = Some ids →
  (∀ id, id ∈ ids → assoc id f = None) →
  ∃ review submitted_at,
    submit df s f now
    = (cleared, render_result 0 (length review) review submitted_at)
    ∧ Forall (λ item, YourAnswer item = None) review.
Proof.
  intros Hs Hnone. rewrite (submit_active _ _ _ _ ids) by done.
  exists (review_of f <$> selected df ids), (isoformat_seconds now +:+ "Z").
  assert (∀ q, q ∈ selected df ids → assoc (QuestionID q) f = None) as Hq
    by (intros q ?%selected_elem_of_ids; by apply Hnone).
  split.
  - rewrite length_fmap. do 2 f_equal.
    rewrite (proj2 (filter_nil_Forall _ _)); [done|].
    intros q Hin. unfold answered_right. by rewrite (Hq q Hin).
  - apply Forall_fmap, Forall_forall. intros q Hin. simpl. by apply Hq.
Qed.

Lemma submit_unanswered_scores_zero_witness :
  ∃ review submitted_at,
    submit bank5 started3 [("Q1", "A"); ("other", "D")] later
    = (cleared, render_result 0 (length review) review submitted_at)
    ∧ Forall (λ item, YourAnswer item = None) review.
Proof.
  apply (submit_unanswered_scores_zero bank5 started3 _ later
           ["Q4"; "Q3"; "Q5"]).
  - reflexivity.
  - refine (proj1 (Forall_forall _ _) _). compute_done.
Defined.

(** X10. A question whose CorrectAnswer cell is not text (a number, or
    empty) can never be answered right: when that holds for all selected
    questions the score is zero whatever is submitted. *)
Theorem submit_never_scores_non_text_answers df s f now ids :
  qids s = Some ids →
  (∀ q, q ∈ df → QuestionID q ∈ ids → ∀ c, CorrectAnswer q ≠ CStr c) →
  ∃ review submitted_at,
    submit df s f now
    = (cleared, render_result 0 (length review) review submitted_at).
Proof.
  intros Hs Hcell. rewrite (submit_active _ _ _ _ ids) by done.
  exists (review_of f <$> selected df ids), (isoformat_seconds now +:+ "Z").
  rewrite length_fmap. do 2 f_equal.
  rewrite (proj2 (filter_nil_Forall _ _)); [done|].
  intros q (r & -> & Hq & Hin)%selected_elem_of. unfold answered_right.
  specialize (Hcell r Hin Hq). simpl.
  destruct (assoc (QuestionID r) f), (CorrectAnswer r) as [c| |]; simpl;
    try done.
  by destruct (Hcell c).
Qed.

Lemma submit_never_scores_non_text_answers_witness :
  ∃ review submitted_at,
    submit bank_numeric {| qids := Some ["Q2"; "Q1"]; started_at := None |}
      [("Q1", "1"); ("Q2", "nan")] noon
    = (cleared, render_result 0 (length review) review submitted_at).
Proof.
  apply (submit_never_scores_non_text_answers bank_numeric
           {| qids := Some ["Q2"; "Q1"]; started_at := None |}
           [("Q1", "1"); ("Q2", "nan")] noon ["Q2"; "Q1"]).
  - reflexivity.
  - intros q Hq _ c. unfold bank_numeric in Hq.
    repeat (apply elem_of_cons in Hq as [->|Hq]; [simpl; discriminate|]).
    by apply elem_of_nil in Hq.
Defined.

(** X11. The review is about the questions the quiz page showed: on a
    session that holds a quiz, the items of the review carry, in the same
    order, the ids, texts and correct answers of the questions [home]
    returns for that session, as many items as questions. *)
Theorem submit_reviews_the_questions_shown df n s f draws now now' ids :
  qids s = Some ids →
  ∃ questions score review submitted_at,
    home df n s draws now = (s, render_quiz questions (length questions))
    ∧ submit df s f now'
      = (cleared, render_result score (length questions) review submitted_at)
    ∧ review_QuestionID <$> review = QuestionID <$> questions
    ∧ review_QuestionText <$> review = QuestionText <$> questions
    ∧ review_CorrectAnswer <$> review = CorrectAnswer <$> questions.
Proof.
  intros Hs. rewrite (home_active _ _ _ _ _ ids) by done.
  rewrite (submit_active _ _ _ _ ids) by done.
  exists (selected df ids),
    (length (filter (answered_right f) (selected df ids))),
    (review_of f <$> selected df ids), (isoformat_seconds now' +:+ "Z").
  repeat split; rewrite <- list_fmap_compose; by apply list_fmap_ext.
Qed.

Lemma submit_reviews_the_questions_shown_witness :
  ∃ questions score review submitted_at,
    home bank5 3 started3 draws7 noon
    = (started3, render_quiz questions (length questions))
    ∧ submit bank5 started3 [("Q3", "C")] later
      = (cleared, render_result score (length questions) review submitted_at)
    ∧ review_QuestionID <$> review = QuestionID <$> questions
    ∧ review_QuestionText <$> review = QuestionText <$> questions
    ∧ review_CorrectAnswer <$> review = CorrectAnswer <$> questions.
Proof.
  apply (submit_reviews_the_questions_shown bank5 3 started3 [("Q3", "C")]
           draws7 noon later ["Q4"; "Q3"; "Q5"]).
  reflexivity.
Defined.

(** X12. A quiz is scored once: the submit that follows a scored submit,
    with nothing in between, finds no quiz, scores nothing and is
    redirected to the quiz page. *)
Theorem second_submit_is_redirected df s f f' now now' ids :
  qids s = Some ids →
  submit df (submit df s f now).1 f' now' = (cleared, redirect "home").
Proof.
  intros Hs. rewrite (submit_active df s f now ids Hs). reflexivity.
Qed.

Lemma second_submit_is_redirected_witness :
  submit bank5 (submit bank5 started3 [("Q3", "C")] noon).1 [("Q3", "C")]
    later
  = (cleared, redirect "home").
Proof.
  apply (second_submit_is_redirected bank5 started3 [("Q3", "C")]
           [("Q3", "C")] noon later ["Q4"; "Q3"; "Q5"]).
  reflexivity.
Defined.

(** ** Further properties: start over, and whole visits *)

(** X13. Start-over abandons the quiz whatever the session held: a submit
    right after it is redirected without a score, and, the quiz size
    fitting the bank, the quiz page right after it stores ids drawn with
    that visit's run of the generator and that visit's clock reading. *)
Theorem start_over_abandons_quiz df n s f draws now :
  n ≤ length df →
  ∃ picked questions,
    submit df (start_over s).1 f now = (cleared, redirect "home")
    ∧ _pick_question_ids df n draws = Ok picked
    ∧ home df n (start_over s).1 draws now
      = ({| qids := Some picked; started_at := Some (isoformat now) |},
         render_quiz questions (length questions)).
Proof.
  intros Hn. simpl. rewrite home_absent by done.
  rewrite pick_question_ids_Ok by done. by eexists _, _.
Qed.

Lemma start_over_abandons_quiz_witness :
  ∃ picked questions,
    submit bank5 (start_over started3).1 [("Q3", "C")] later
    = (cleared, redirect "home")
    ∧ _pick_question_ids bank5 3 S = Ok picked
    ∧ home bank5 3 (start_over started3).1 S later
      = ({| qids := Some picked; started_at := Some (isoformat later) |},
         render_quiz questions (length questions)).
Proof.
  apply (start_over_abandons_quiz bank5 3 started3 [("Q3", "C")] S later).
  vm_compute. lia.
Defined.

Lemma handle_keys_together df n s req :
  keys_together n s → keys_together n (handle df n s req).1.
Proof.
  intros Hs. destruct req as [draws now|f now|]; simpl.
  - destruct (qids s) as [ids|] eqn:Hq.
    + by rewrite (home_active _ _ _ _ _ ids).
    + rewrite home_absent by done.
      destruct (_pick_question_ids df n draws) as [picked|e] eqn:Hp; [|done].
      right. exists picked, (isoformat now). split; [done|].
      by apply (pick_question_ids_length df n draws).
  - destruct (qids s) as [ids|] eqn:Hq.
    + rewrite (submit_active _ _ _ _ ids) by done. by left.
    + unfold submit. by rewrite Hq.
  - by left.
Qed.

Lemma run_keys_together df n reqs s :
  keys_together n s → keys_together n (run df n s reqs).1.
Proof.
  revert s. induction reqs as [|req reqs IH]; intros s Hs; [done|].
  simpl. pose proof (handle_keys_together df n s req Hs) as Hnext.
  destruct (handle df n s req) as [s' resp]. specialize (IH s' Hnext).
  by destruct (run df n s' reqs).
Qed.

(** X14. Whatever requests a visitor makes, starting without a session,
    the session holds either neither key or both, ids and start time; and
    when it holds ids they are as many as the quiz size. *)
Theorem run_sets_and_clears_both_keys df n reqs :
  (qids (run df n cleared reqs).1 = None
   ∧ started_at (run df n cleared reqs).1 = None)
  ∨ (∃ ids t,
       (run df n cleared reqs).1
       = {| qids := Some ids; started_at := Some t |}
       ∧ length ids = n).
Proof. apply (run_keys_together df n reqs cleared). by left. Qed.

(** X15. With unique ids in the bank, whatever requests a visitor makes,
    starting without a session, the ids a session holds are distinct ids
    of questions of the bank. *)
Theorem run_stores_distinct_bank_ids df n reqs ids :
  valid_bank df →
  qids (run df n cleared reqs).1 = Some ids →
  NoDup ids ∧ ∀ id, id ∈ ids → id ∈ QuestionID <$> df.
Proof.
  intros Hdf Hs.
  apply (run_session_ok df n reqs cleared Hdf); [|done]. by intros ? [=].
Qed.

Lemma run_stores_distinct_bank_ids_witness :
  NoDup ["Q2"; "Q4"; "Q1"]
  ∧ ∀ id, id ∈ ["Q2"; "Q4"; "Q1"] → id ∈ QuestionID <$> bank5.
Proof.
  apply (run_stores_distinct_bank_ids bank5 3
           [GET_home draws7 noon; POST_submit [("Q3", "C")] later;
            GET_home S later]).
  - compute_done.
  - vm_compute. reflexivity.
Defined.

Lemma handle_no_error df n s req :
  n ≤ length df → is_InternalError (handle df n s req).2 = false.
Proof.
  intros Hn. destruct req as [draws now|f now|]; simpl; [| |done].
  - destruct (qids s) as [ids|] eqn:Hq.
    + by rewrite (home_active _ _ _ _ _ ids).
    + by rewrite home_absent, pick_question_ids_Ok.
  - destruct (qids s) as [ids|] eqn:Hq.
    + by rewrite (submit_active _ _ _ _ ids).
    + unfold submit. by rewrite Hq.
Qed.

(** X16. For a bank loaded from a sheet with no empty QuestionID cell,
    when the quiz size fits the bank no request ever gets the failure
    page: every answer to every sequence of requests, from a session with
    string ids or none, is a quiz page, a result page or a redirect. *)
Theorem run_never_fails_when_quiz_fits sheet df n s reqs :
  startup sheet = Ok df →
  ids_filled sheet →
  n ≤ length df →
  Forall (λ resp, is_InternalError resp = false) (run df n s reqs).2.
Proof.
  intros _ _ Hn. revert s. induction reqs as [|req reqs IH]; intros s.
  { constructor. }
  simpl. pose proof (handle_no_error df n s req Hn) as Hresp.
  destruct (handle df n s req) as [s' resp]. specialize (IH s').
  destruct (run df n s' reqs) as [s'' resps]. by constructor.
Qed.

Lemma run_never_fails_when_quiz_fits_witness :
  Forall (λ resp, is_InternalError resp = false)
    (run bank5 5 started3
       [POST_submit [] noon; POST_submit [] noon; GET_start_over;
        GET_home draws7 later]).2.
Proof.
  apply (run_never_fails_when_quiz_fits sheet5 bank5 5 started3).
  - vm_compute. reflexivity.
  - compute_done.
  - vm_compute. lia.
Defined.

Lemma assoc_app_Some {V} (k : string) (l1 l2 : list (string * V)) :
  is_Some (assoc k l1) → assoc k (l1 ++ l2) = assoc k l1.
Proof.
  induction l1 as [|[k' v] l1 IH]; simpl; [by intros [? [=]]|].
  by destruct (decide (k = k')).
Qed.

(** X17. For each stored id the first field sent under it is the answer:
    once a form answers every stored id, whatever fields follow, under
    those ids again or under other names, change nothing of the result. *)
Theorem submit_ignores_fields_after_the_answers df s f f' now ids :
  qids s = Some ids →
  (∀ id, id ∈ ids → is_Some (assoc id f)) →
  submit df s (f ++ f') now = submit df s f now.
Proof.
  intros Hs Hall. unfold submit. rewrite Hs, get_questions_by_ids_Ok.
  rewrite (score_loop_agree (f ++ f') f); [done|].
  intros q Hq%selected_elem_of_ids. by apply assoc_app_Some, Hall.
Qed.

Lemma submit_ignores_fields_after_the_answers_witness :
  submit bank5 started3
    ([("Q3", "C"); ("Q4", "A"); ("Q5", "A")] ++ [("Q4", "D"); ("Q1", "A")])
    later
  = submit bank5 started3 [("Q3", "C"); ("Q4", "A"); ("Q5", "A")] later.
Proof.
  apply (submit_ignores_fields_after_the_answers bank5 started3 _ _ later
           ["Q4"; "Q3"; "Q5"]).
  - reflexivity.
  - refine (proj1 (Forall_forall _ _) _). compute_done.
Defined.

(** ** Further properties: the quiz form *)

Lemma input_fields_PAGE_meta q : flat_map input_fields (PAGE_meta q) = [].
Proof.
  unfold PAGE_meta.
  destruct (jinja_if (record_get q "Category")),
    (jinja_if (record_get q "Difficulty")); reflexivity.
Qed.

Lemma input_fields_PAGE_question i q :
  input_fields (PAGE_question i q)
  = (λ opt, (QuestionID q, opt)) <$> ["A"; "B"; "C"; "D"].
Proof.
  unfold PAGE_question.
  change (input_fields (Elem "div" [("class", "q")] ?c))
    with (flat_map input_fields c).
  rewrite !flat_map_app, input_fields_PAGE_meta. reflexivity.
Qed.

(** X18. The quiz form offers, for each question shown and in their order,
    exactly four input fields, all named by the question's id, with the
    values A, B, C and D; it has no other input. *)
Theorem PAGE_quiz_offers_four_labels_per_question (questions : DataFrame) :
  input_fields (PAGE_quiz questions)
  = flat_map (λ q, (λ opt, (QuestionID q, opt)) <$> ["A"; "B"; "C"; "D"])
      questions.
Proof.
  unfold PAGE_quiz.
  change (input_fields (Elem "form" ?a ?c)) with (flat_map input_fields c).
  rewrite flat_map_app. simpl (flat_map input_fields [_]).
  rewrite app_nil_r.
  generalize (input_fields_PAGE_question). generalize PAGE_question.
  induction questions as [|q questions IH]; intros g Hg; [done|].
  rewrite imap_cons.
  change (flat_map input_fields (g 0 q :: imap (g ∘ S) questions))
    with (input_fields (g 0 q)
          ++ flat_map input_fields (imap (g ∘ S) questions)).
  rewrite Hg, (IH (g ∘ S)); [done|]. intros i q'. apply Hg.
Qed.

(** X19. A session whose stored ids are all unknown to the bank (a cookie
    from before the bank was replaced) is not refused: the quiz page shows
    a quiz of no question and keeps the session, and a submit is scored
    zero out of zero with an empty review and clears the session. *)
Theorem stale_session_gets_empty_quiz df n s f draws now ids :
  qids s = Some ids →
  (∀ id, id ∈ ids → id ∉ QuestionID <$> df) →
  home df n s draws now = (s, render_quiz [] 0)
  ∧ ∃ submitted_at,
      submit df s f now = (cleared, render_result 0 0 [] submitted_at).
Proof.
  intros Hs Hnone.
  assert (selected df ids = []) as Hsel.
  { apply Permutation_nil_r. rewrite selected_Permutation.
    rewrite (proj2 (filter_nil_Forall (λ r, QuestionID r ∈ ids) df)); [done|].
    intros q Hq Hin. apply (Hnone _ Hin). by apply list_elem_of_fmap_2. }
  rewrite (home_active _ _ _ _ _ ids), (submit_active _ _ _ _ ids) by done.
  rewrite Hsel. eauto.
Qed.

Lemma stale_session_gets_empty_quiz_witness :
  home bank5 3 {| qids := Some ["7"; "8"]; started_at := None |} draws7 noon
  = ({| qids := Some ["7"; "8"]; started_at := None |}, render_quiz [] 0)
  ∧ ∃ submitted_at,
      submit bank5 {| qids := Some ["7"; "8"]; started_at := None |}
        [("7", "A")] noon
      = (cleared, render_result 0 0 [] submitted_at).
Proof.
  apply (stale_session_gets_empty_quiz bank5 3
           {| qids := Some ["7"; "8"]; started_at := None |} [("7", "A")]
           draws7 noon ["7"; "8"]).
  - reflexivity.
  - refine (proj1 (Forall_forall _ _) _). compute_done.
Defined.
